(** * PhoneAgent web client: the live task channel

    A shallow embedding of the three pieces of the web client that keep an
    operator's view of a running task in step with the server:

    - [WebSocketStore]  the pinia store of [web/src/stores/websocket.js]
      (connect, heartbeat, reconnection with backoff, disconnect);
    - [InterventionDialog]  the human-intervention dialog, the second
      component of [web/src/components/PlanPreviewDialog.vue]
      (request slot, countdown, the three resolving handlers);
    - [TaskPreview]  the polling half of the real-time task preview
      component ([startPolling], [stopPolling], the poll callback).

    JavaScript runs these on one event loop: every handler runs to completion
    before the next one starts.  Each module therefore has a record for the
    component's refs together with the part of the browser it talks to
    (sockets, timers, the messages handed out), one function per source
    function, and an executable [step] that says which browser event or
    operator action may fire in a given state and what it runs. *)

From stdpp Require Import base numbers option list gmap strings.

Open Scope string_scope.
Open Scope list_scope.
Open Scope nat_scope.

(** ** Falsy values and the [||] default idiom *)

(** A field of a JSON payload: missing ([undefined]), [null], or a value. *)
Inductive Field (A : Type) : Type :=
| Absent
| Null
| Present (a : A).
Arguments Absent {A}.
Arguments Null {A}.
Arguments Present {A} a.

(** Which values of a type JavaScript treats as true in a condition. *)
Class Truthy (A : Type) := truthy : A → bool.

(** A number is falsy exactly when it is 0. *)
#[export] Instance truthy_Z : Truthy Z := fun n => negb (n =? 0)%Z.
(** A string is falsy exactly when it is empty. *)
#[export] Instance truthy_string : Truthy string :=
  fun s => match s with EmptyString => false | _ => true end.
(** An array is an object: always truthy, also when empty. *)
#[export] Instance truthy_list {A} : Truthy (list A) := fun _ => true.

(** [f || d] where [f] is a payload field and [d] a literal default. *)
Definition js_or {A} `{Truthy A} (f : Field A) (d : A) : A :=
  match f with
  | Present a => if truthy a then a else d
  | Absent | Null => d
  end.

(** * The WebSocket store *)
Module WebSocketStore.

(** [WebSocket.readyState]. *)
Inductive ReadyState := CONNECTING | OPEN | CLOSING | CLOSED.

#[export] Instance ReadyState_eq_dec : EqDecision ReadyState.
Proof. solve_decision. Defined.

(** What [send] is given: the two frames the store builds itself and the
    JSON text of any frame a component hands in. *)
Inductive Frame :=
| Subscribe
| Ping
| Json (text : string).

Definition maxReconnectAttempts : Z := 10.

(** The store's refs, followed by the browser objects it created.  A socket
    is named by its position in [sockets]; every socket in the list was
    created by [connect] and so carries the four handlers [connect] installs.
    [timeouts] lists every [setTimeout(() => connect(), d)] ever issued,
    with [true] once it has fired. *)
Record Store := mkStore {
  ws : option nat;
  connected : bool;
  reconnectAttempts : Z;
  reconnectDelay : Z;
  heartbeatTimer : option positive;
  sockets : list ReadyState;
  intervals : gset positive;
  nextTimer : positive;
  timeouts : list (Z * bool);
  outbox : list (nat * Frame);
  urlValid : bool
}.

Definition set_ws v s := mkStore v (connected s) (reconnectAttempts s)
  (reconnectDelay s) (heartbeatTimer s) (sockets s) (intervals s)
  (nextTimer s) (timeouts s) (outbox s) (urlValid s).
Definition set_connected v s := mkStore (ws s) v (reconnectAttempts s)
  (reconnectDelay s) (heartbeatTimer s) (sockets s) (intervals s)
  (nextTimer s) (timeouts s) (outbox s) (urlValid s).
Definition set_reconnectAttempts v s := mkStore (ws s) (connected s) v
  (reconnectDelay s) (heartbeatTimer s) (sockets s) (intervals s)
  (nextTimer s) (timeouts s) (outbox s) (urlValid s).
Definition set_reconnectDelay v s := mkStore (ws s) (connected s)
  (reconnectAttempts s) v (heartbeatTimer s) (sockets s) (intervals s)
  (nextTimer s) (timeouts s) (outbox s) (urlValid s).
Definition set_heartbeatTimer v s := mkStore (ws s) (connected s)
  (reconnectAttempts s) (reconnectDelay s) v (sockets s) (intervals s)
  (nextTimer s) (timeouts s) (outbox s) (urlValid s).
Definition set_sockets v s := mkStore (ws s) (connected s)
  (reconnectAttempts s) (reconnectDelay s) (heartbeatTimer s) v (intervals s)
  (nextTimer s) (timeouts s) (outbox s) (urlValid s).
Definition set_intervals v s := mkStore (ws s) (connected s)
  (reconnectAttempts s) (reconnectDelay s) (heartbeatTimer s) (sockets s) v
  (nextTimer s) (timeouts s) (outbox s) (urlValid s).
Definition set_nextTimer v s := mkStore (ws s) (connected s)
  (reconnectAttempts s) (reconnectDelay s) (heartbeatTimer s) (sockets s)
  (intervals s) v (timeouts s) (outbox s) (urlValid s).
Definition set_timeouts v s := mkStore (ws s) (connected s)
  (reconnectAttempts s) (reconnectDelay s) (heartbeatTimer s) (sockets s)
  (intervals s) (nextTimer s) v (outbox s) (urlValid s).
Definition set_outbox v s := mkStore (ws s) (connected s)
  (reconnectAttempts s) (reconnectDelay s) (heartbeatTimer s) (sockets s)
  (intervals s) (nextTimer s) (timeouts s) v (urlValid s).

(** The store as [defineStore] builds it. *)
Definition init (urlOk : bool) : Store :=
  mkStore None false 0 1000 None [] ∅ 1%positive [] [] urlOk.

(** [ws.value && ws.value.readyState === WebSocket.OPEN] *)
Definition ws_is_open (s : Store) : bool :=
  match ws s with
  | Some id => bool_decide (sockets s !! id = Some OPEN)
  | None => false
  end.

(** [send]: hands the frame to the current socket when it is open, and only
    warns otherwise. *)
Definition send (f : Frame) (s : Store) : Store :=
  match ws s with
  | Some id =>
      if bool_decide (sockets s !! id = Some OPEN)
      then set_outbox (outbox s ++ [(id, f)]) s
      else s
  | None => s
  end.

Definition stopHeartbeat (s : Store) : Store :=
  match heartbeatTimer s with
  | Some t => set_heartbeatTimer None (set_intervals (intervals s ∖ {[t]}) s)
  | None => s
  end.

Definition startHeartbeat (s : Store) : Store :=
  let s1 := stopHeartbeat s in
  let t := nextTimer s1 in
  set_heartbeatTimer (Some t)
    (set_nextTimer (Pos.succ t) (set_intervals ({[t]} ∪ intervals s1) s1)).

(** The [onopen] handler [connect] installs on a socket. *)
Definition onopen (s : Store) : Store :=
  startHeartbeat
    (send Subscribe
       (set_reconnectDelay 1000
          (set_reconnectAttempts 0 (set_connected true s)))).

(** [connect].  When the guard does not return, a socket is constructed and
    stored in [ws]; the constructor throws on a malformed URL, which the
    [catch] only logs. *)
Definition connect (s : Store) : Store :=
  if ws_is_open s then s
  else if urlValid s
       then set_ws (Some (length (sockets s)))
              (set_sockets (sockets s ++ [CONNECTING]) s)
       else s.

(** The [onclose] handler [connect] installs on a socket. *)
Definition onclose (s : Store) : Store :=
  let s1 := stopHeartbeat (set_connected false s) in
  if (reconnectAttempts s1 <? maxReconnectAttempts)%Z
  then
    let s2 := set_reconnectAttempts (reconnectAttempts s1 + 1)%Z s1 in
    let s3 := set_timeouts (timeouts s2 ++ [(reconnectDelay s2, false)]) s2 in
    set_reconnectDelay (Z.min (reconnectDelay s3 * 2) 30000) s3
  else s1.

(** [WebSocket.close()]: a socket that is connecting or open starts closing;
    the browser reports the end of the connection later with a close event. *)
Definition socket_close (id : nat) (s : Store) : Store :=
  match sockets s !! id with
  | Some CONNECTING | Some OPEN => set_sockets (<[id := CLOSING]> (sockets s)) s
  | _ => s
  end.

(** [disconnect]. *)
Definition disconnect (s : Store) : Store :=
  let s1 := stopHeartbeat s in
  let s2 := match ws s1 with
            | Some id => set_ws None (socket_close id s1)
            | None => s1
            end in
  set_connected false s2.

(** What can happen to the store: calls of its three exported methods, the
    four events of a socket, a reconnect timeout firing, a heartbeat tick. *)
Inductive Event :=
| CallConnect
| CallDisconnect
| CallSend (f : Frame)
| SockOpen (id : nat)
| SockMessage (id : nat)
| SockError (id : nat)
| SockClose (id : nat)
| TimeoutFire (i : nat)
| HeartbeatTick (t : positive).

(** One turn of the event loop; [None] when the browser cannot deliver the
    event in this state (a socket opens once, out of [CONNECTING]; it closes
    once; a cleared interval and a fired timeout do not fire). *)
Definition step (e : Event) (s : Store) : option Store :=
  match e with
  | CallConnect => Some (connect s)
  | CallDisconnect => Some (disconnect s)
  | CallSend f => Some (send f s)
  | SockOpen id =>
      match sockets s !! id with
      | Some CONNECTING => Some (onopen (set_sockets (<[id := OPEN]> (sockets s)) s))
      | _ => None
      end
  | SockMessage id =>
      match sockets s !! id with
      | Some OPEN | Some CLOSING => Some s
      | _ => None
      end
  | SockError id =>
      match sockets s !! id with
      | Some _ => Some s
      | None => None
      end
  | SockClose id =>
      match sockets s !! id with
      | Some CLOSED | None => None
      | Some _ => Some (onclose (set_sockets (<[id := CLOSED]> (sockets s)) s))
      end
  | TimeoutFire i =>
      match timeouts s !! i with
      | Some (d, false) => Some (connect (set_timeouts (<[i := (d, true)]> (timeouts s)) s))
      | _ => None
      end
  | HeartbeatTick t =>
      if bool_decide (t ∈ intervals s) then Some (send Ping s) else None
  end.

Fixpoint run (evs : list Event) (s : Store) : option Store :=
  match evs with
  | [] => Some s
  | e :: evs' =>
      match step e s with
      | Some s' => run evs' s'
      | None => None
      end
  end.

(** The delays of all reconnects scheduled so far, oldest first. *)
Definition scheduled (s : Store) : list Z := (timeouts s).*1.

(** The three quantities the reconnection policy is about. *)
Definition policy (s : Store) : Z * Z * list Z :=
  (reconnectAttempts s, reconnectDelay s, scheduled s).

(** The sockets that are not closed. *)
Definition live_sockets (s : Store) : list ReadyState :=
  filter (λ st, st ≠ CLOSED) (sockets s).

(** The delay in force after [n] closes in a row: 1000 ms, doubled at each
    close and capped at 30000 ms. *)
Fixpoint backoff (n : nat) : Z :=
  match n with
  | O => 1000
  | S n' => Z.min (backoff n' * 2) 30000
  end.

Definition is_open_event (e : Event) : bool :=
  match e with SockOpen _ => true | _ => false end.

Definition is_close_event (e : Event) : bool :=
  match e with SockClose _ => true | _ => false end.

(** No socket opens during [evs]. *)
Definition no_open (evs : list Event) : bool :=
  forallb (λ e, negb (is_open_event e)) evs.

(** How many sockets close during [evs]. *)
Definition closes (evs : list Event) : nat :=
  length (filter (λ e, is_close_event e = true) evs).

(** The store of a page that called [connect] and whose socket opened. *)
Definition open_store : Store :=
  mkStore (Some 0) true 0 1000 (Some 1%positive) [OPEN] {[1%positive]}
    2%positive [] [(0, Subscribe)] true.

(** The store of a page that called [connect] and whose socket has not
    opened yet. *)
Definition connecting_store : Store :=
  mkStore (Some 0) false 0 1000 None [CONNECTING] ∅ 1%positive [] [] true.

(** An open connection drops and two reconnects fail in turn. *)
Definition streak : list Event :=
  [SockClose 0; TimeoutFire 0; SockClose 1; TimeoutFire 1; SockClose 2].

Definition after_streak : Store := default open_store (run streak open_store).

(** The server is down when the page loads: the first socket and the first
    retry both close without ever opening. *)
Definition cold_start : list Event :=
  [CallConnect; SockClose 0; TimeoutFire 0; SockClose 1].

Definition after_cold_start : Store :=
  default (init true) (run cold_start (init true)).

End WebSocketStore.

(** * The human-intervention dialog *)
Module InterventionDialog.

(** The [detail] of a [human-intervention-needed] event.  The four fields the
    handler copies as they are come first; the other four are the ones it
    reads through [|| default].  [data_timeout] is a whole number of
    seconds. *)
Record Detail := mkDetail {
  data_intervention_type : string;
  data_message : string;
  data_request_id : string;
  data_task_id : string;
  data_timeout : Field Z;
  data_options : Field (list string);
  data_input_type : Field string;
  data_placeholder : Field string
}.

(** The object literal a handler passes to [sendResponse]. *)
Record Response := mkResponse {
  success : bool;
  response_type : string;
  selected_option : option string;
  input_value : option string;
  error : option string
}.

(** The message [sendResponse] builds:
    [{type, data: {request_id, task_id, ...response}}]. *)
Record WsMessage := mkWsMessage {
  msg_type : string;
  msg_request_id : string;
  msg_task_id : string;
  msg_response : Response
}.

(** What the component does to the outside, in the order it does it. *)
Inductive Effect :=
| SetInterval (t : positive)
| ClearInterval (t : positive)
| WsSend (m : WsMessage)
| FocusInput.

(** The component's refs, [countdownTimer], and the browser side: the live
    interval handles, the next handle [setInterval] returns, the effects so
    far (oldest first). *)
Record Dialog := mkDialog {
  visible : bool;
  interventionType : string;
  message : string;
  options : list string;
  inputType : string;
  placeholder : string;
  inputValue : string;
  timeout : Z;
  remainingTime : Z;
  requestId : string;
  taskId : string;
  countdownTimer : option positive;
  intervals : gset positive;
  nextTimer : positive;
  log : list Effect
}.

Definition set_visible v w := mkDialog v (interventionType w) (message w)
  (options w) (inputType w) (placeholder w) (inputValue w) (timeout w)
  (remainingTime w) (requestId w) (taskId w) (countdownTimer w) (intervals w)
  (nextTimer w) (log w).
Definition set_interventionType v w := mkDialog (visible w) v (message w)
  (options w) (inputType w) (placeholder w) (inputValue w) (timeout w)
  (remainingTime w) (requestId w) (taskId w) (countdownTimer w) (intervals w)
  (nextTimer w) (log w).
Definition set_message v w := mkDialog (visible w) (interventionType w) v
  (options w) (inputType w) (placeholder w) (inputValue w) (timeout w)
  (remainingTime w) (requestId w) (taskId w) (countdownTimer w) (intervals w)
  (nextTimer w) (log w).
Definition set_options v w := mkDialog (visible w) (interventionType w)
  (message w) v (inputType w) (placeholder w) (inputValue w) (timeout w)
  (remainingTime w) (requestId w) (taskId w) (countdownTimer w) (intervals w)
  (nextTimer w) (log w).
Definition set_inputType v w := mkDialog (visible w) (interventionType w)
  (message w) (options w) v (placeholder w) (inputValue w) (timeout w)
  (remainingTime w) (requestId w) (taskId w) (countdownTimer w) (intervals w)
  (nextTimer w) (log w).
Definition set_placeholder v w := mkDialog (visible w) (interventionType w)
  (message w) (options w) (inputType w) v (inputValue w) (timeout w)
  (remainingTime w) (requestId w) (taskId w) (countdownTimer w) (intervals w)
  (nextTimer w) (log w).
Definition set_inputValue v w := mkDialog (visible w) (interventionType w)
  (message w) (options w) (inputType w) (placeholder w) v (timeout w)
  (remainingTime w) (requestId w) (taskId w) (countdownTimer w) (intervals w)
  (nextTimer w) (log w).
Definition set_timeout v w := mkDialog (visible w) (interventionType w)
  (message w) (options w) (inputType w) (placeholder w) (inputValue w) v
  (remainingTime w) (requestId w) (taskId w) (countdownTimer w) (intervals w)
  (nextTimer w) (log w).
Definition set_remainingTime v w := mkDialog (visible w) (interventionType w)
  (message w) (options w) (inputType w) (placeholder w) (inputValue w) (timeout
  w) v (requestId w) (taskId w) (countdownTimer w) (intervals w) (nextTimer w)
  (log w).
Definition set_requestId v w := mkDialog (visible w) (interventionType w)
  (message w) (options w) (inputType w) (placeholder w) (inputValue w) (timeout
  w) (remainingTime w) v (taskId w) (countdownTimer w) (intervals w) (nextTimer
  w) (log w).
Definition set_taskId v w := mkDialog (visible w) (interventionType w)
  (message w) (options w) (inputType w) (placeholder w) (inputValue w) (timeout
  w) (remainingTime w) (requestId w) v (countdownTimer w) (intervals w)
  (nextTimer w) (log w).
Definition set_countdownTimer v w := mkDialog (visible w) (interventionType w)
  (message w) (options w) (inputType w) (placeholder w) (inputValue w) (timeout
  w) (remainingTime w) (requestId w) (taskId w) v (intervals w) (nextTimer w)
  (log w).
Definition set_intervals v w := mkDialog (visible w) (interventionType w)
  (message w) (options w) (inputType w) (placeholder w) (inputValue w) (timeout
  w) (remainingTime w) (requestId w) (taskId w) (countdownTimer w) v (nextTimer
  w) (log w).
Definition set_nextTimer v w := mkDialog (visible w) (interventionType w)
  (message w) (options w) (inputType w) (placeholder w) (inputValue w) (timeout
  w) (remainingTime w) (requestId w) (taskId w) (countdownTimer w) (intervals w)
  v (log w).
Definition set_log v w := mkDialog (visible w) (interventionType w) (message
  w) (options w) (inputType w) (placeholder w) (inputValue w) (timeout w)
  (remainingTime w) (requestId w) (taskId w) (countdownTimer w) (intervals w)
  (nextTimer w) v.

(** The component as [setup] leaves it. *)
Definition init : Dialog :=
  mkDialog false "" "" [] "text" "" "" 60 0 "" "" None ∅ 1%positive [].

Definition emit (e : Effect) (w : Dialog) : Dialog := set_log (log w ++ [e]) w.

(** The messages handed to [wsStore.send] so far, oldest first. *)
Definition sent (w : Dialog) : list WsMessage :=
  omap (λ e, match e with WsSend m => Some m | _ => None end) (log w).

(** ** [String.prototype.trim]

    A text is held as the bytes of its UTF-8 encoding.  [trim] strips from
    both ends the code points ECMAScript counts as white space or line
    terminator: U+0009 to U+000D and U+0020 (one byte each), U+00A0 (two
    bytes), and U+1680, U+2000 to U+200A, U+2028, U+2029, U+202F, U+205F,
    U+3000 and U+FEFF (three bytes each). *)

Definition code (a : Ascii.ascii) : N := Ascii.N_of_ascii a.

(** U+0009 .. U+000D, U+0020. *)
Definition space1 (a : Ascii.ascii) : bool := Ascii.is_space a.

(** U+00A0 is [C2 A0]. *)
Definition space2 (a b : Ascii.ascii) : bool :=
  (code a =? 0xC2)%N && (code b =? 0xA0)%N.

(** U+1680 is [E1 9A 80]; U+2000 .. U+200A are [E2 80 80] .. [E2 80 8A];
    U+2028, U+2029 and U+202F are [E2 80 A8], [E2 80 A9] and [E2 80 AF];
    U+205F is [E2 81 9F]; U+3000 is [E3 80 80]; U+FEFF is [EF BB BF]. *)
Definition space3 (a b c : Ascii.ascii) : bool :=
  ((code a =? 0xE1) && (code b =? 0x9A) && (code c =? 0x80))%N
  || ((code a =? 0xE2) && (code b =? 0x80)
      && (((0x80 <=? code c) && (code c <=? 0x8A))
          || (code c =? 0xA8) || (code c =? 0xA9) || (code c =? 0xAF)))%N
  || ((code a =? 0xE2) && (code b =? 0x81) && (code c =? 0x9F))%N
  || ((code a =? 0xE3) && (code b =? 0x80) && (code c =? 0x80))%N
  || ((code a =? 0xEF) && (code b =? 0xBB) && (code c =? 0xBF))%N.

(** Strips the white space at the start. *)
Fixpoint trimStart (s : string) : string :=
  match s with
  | String a r1 =>
      if space1 a then trimStart r1
      else
        match r1 with
        | String b r2 =>
            if space2 a b then trimStart r2
            else
              match r2 with
              | String c r3 => if space3 a b c then trimStart r3 else s
              | EmptyString => s
              end
        | EmptyString => s
        end
  | EmptyString => EmptyString
  end.

(** The same on the reversed text, where the bytes of a code point come
    last byte first. *)
Fixpoint trimStart_reversed (s : string) : string :=
  match s with
  | String c r1 =>
      if space1 c then trimStart_reversed r1
      else
        match r1 with
        | String b r2 =>
            if space2 b c then trimStart_reversed r2
            else
              match r2 with
              | String a r3 =>
                  if space3 a b c then trimStart_reversed r3 else s
              | EmptyString => s
              end
        | EmptyString => s
        end
  | EmptyString => EmptyString
  end.

Definition trim (s : string) : string :=
  String.rev (trimStart_reversed (String.rev (trimStart s))).

Definition stopCountdown (w : Dialog) : Dialog :=
  match countdownTimer w with
  | Some t =>
      set_countdownTimer None
        (emit (ClearInterval t) (set_intervals (intervals w ∖ {[t]}) w))
  | None => w
  end.

(** [startCountdown] up to the callback, which is [countdown_tick] below. *)
Definition startCountdown (w : Dialog) : Dialog :=
  let w1 := stopCountdown w in
  let t := nextTimer w1 in
  set_countdownTimer (Some t)
    (emit (SetInterval t)
       (set_nextTimer (Pos.succ t) (set_intervals ({[t]} ∪ intervals w1) w1))).

Definition sendResponse (r : Response) (w : Dialog) : Dialog :=
  emit (WsSend (mkWsMessage "human_intervention_response"
                  (requestId w) (taskId w) r)) w.

Definition handleInterventionRequest (data : Detail) (w : Dialog) : Dialog :=
  let w1 :=
    set_timeout (js_or (data_timeout data) 60%Z)
      (set_taskId (data_task_id data)
         (set_requestId (data_request_id data)
            (set_message (data_message data)
               (set_interventionType (data_intervention_type data) w)))) in
  let w2 :=
    if bool_decide (data_intervention_type data = "confirm")
    then set_options (js_or (data_options data) ["确认"; "取消"]) w1
    else if bool_decide (data_intervention_type data = "input")
    then set_inputValue ""
           (set_placeholder (js_or (data_placeholder data) "请输入...")
              (set_inputType (js_or (data_input_type data) "text") w1))
    else w1 in
  let w3 := set_remainingTime (timeout w2) (set_visible true w2) in
  let w4 := startCountdown w3 in
  if bool_decide (data_intervention_type data = "input")
  then emit FocusInput w4
  else w4.

Definition handleConfirm (selectedOption : string) (w : Dialog) : Dialog :=
  set_visible false
    (sendResponse (mkResponse true "confirm" (Some selectedOption) None None)
       (stopCountdown w)).

Definition handleSubmit (w : Dialog) : Dialog :=
  if negb (truthy (trim (inputValue w))) then w
  else
    set_inputValue ""
      (set_visible false
         (sendResponse (mkResponse true "input" None (Some (inputValue w)) None)
            (stopCountdown w))).

Definition handleCancel (w : Dialog) : Dialog :=
  set_inputValue ""
    (set_visible false
       (sendResponse
          (mkResponse false (interventionType w) None None (Some "User cancelled"))
          (stopCountdown w))).

Definition handleTimeout (w : Dialog) : Dialog :=
  set_inputValue ""
    (set_visible false
       (sendResponse
          (mkResponse false (interventionType w) None None (Some "Timeout")) w)).

(** The callback [startCountdown] gives to [setInterval]. *)
Definition countdown_tick (w : Dialog) : Dialog :=
  let w1 := set_remainingTime (remainingTime w - 1)%Z w in
  if (remainingTime w1 <=? 0)%Z
  then handleTimeout (stopCountdown w1)
  else w1.

(** What can reach the component: the window event, the operator's clicks
    and typing, a tick of an interval. *)
Inductive Action :=
| InterventionNeeded (data : Detail)
| ClickOption (index : nat)
| TypeInput (text : string)
| Submit
| Cancel
| CountdownTick (t : positive).

(** The template renders the option buttons inside
    [<el-dialog v-model="visible">] under [v-if="interventionType === 'confirm'"],
    and the input, 取消 and 提交 under [v-else-if="interventionType === 'input'"];
    the dialog has no close button and ignores Escape and clicks outside. *)
Definition shows (kind : string) (w : Dialog) : bool :=
  visible w && bool_decide (interventionType w = kind).

(** One turn of the event loop; [None] when the action cannot happen in this
    state (the control is not rendered, the interval is cleared). *)
Definition step (a : Action) (w : Dialog) : option Dialog :=
  match a with
  | InterventionNeeded data => Some (handleInterventionRequest data w)
  | ClickOption i =>
      if shows "confirm" w
      then match options w !! i with
           | Some option => Some (handleConfirm option w)
           | None => None
           end
      else None
  | TypeInput text =>
      if shows "input" w then Some (set_inputValue text w) else None
  | Submit => if shows "input" w then Some (handleSubmit w) else None
  | Cancel => if shows "input" w then Some (handleCancel w) else None
  | CountdownTick t =>
      if bool_decide (t ∈ intervals w) then Some (countdown_tick w) else None
  end.

Fixpoint run (acts : list Action) (w : Dialog) : option Dialog :=
  match acts with
  | [] => Some w
  | a :: acts' =>
      match step a w with
      | Some w' => run acts' w'
      | None => None
      end
  end.

(** A request is pending: the prompt is up and its countdown runs. *)
Definition pending (w : Dialog) : Prop :=
  visible w = true ∧ ∃ t, countdownTimer w = Some t ∧ intervals w = {[t]}.

(** No request is pending: the prompt is closed and no countdown runs. *)
Definition idle (w : Dialog) : Prop :=
  visible w = false ∧ countdownTimer w = None ∧ intervals w = ∅.

(** The part of the state the prompt shows for the current request. *)
Definition request_state (w : Dialog) : string * string * list string * Z :=
  (requestId w, message w, options w, remainingTime w).



(** The message [sendResponse] builds in state [w] for response [r]. *)
Definition response_message (w : Dialog) (r : Response) : WsMessage :=
  mkWsMessage "human_intervention_response" (requestId w) (taskId w) r.

Definition timeout_response (w : Dialog) : Response :=
  mkResponse false (interventionType w) None None (Some "Timeout").




(** A confirm request with its own options and a 30 s timeout; a second one
    that leaves options and timeout to the defaults; an input request. *)
Definition req1 : Detail :=
  mkDetail "confirm" "Install the app?" "req-1" "task-1"
    (Present 30%Z) (Present ["Yes"; "No"]) Absent Absent.

Definition req2 : Detail :=
  mkDetail "confirm" "Grant the permission?" "req-2" "task-1"
    Absent Null Absent Absent.

Definition req3 : Detail :=
  mkDetail "input" "Enter the code" "req-3" "task-1"
    (Present 0%Z) Absent Absent Absent.

(** The dialog after [req1] arrived at a fresh component. *)
Definition pending1 : Dialog :=
  mkDialog true "confirm" "Install the app?" ["Yes"; "No"] "text" "" ""
    30 30 "req-1" "task-1" (Some 1%positive) {[1%positive]} 2%positive
    [SetInterval 1%positive].




End InterventionDialog.

(** * The real-time task preview: polling *)
Module TaskPreview.

(** A task as [taskApi.get] returns it and as [currentTask] holds it. *)
Record Task := mkTask {
  task_id : string;
  started_at : Field string;
  status : string;
  result : Field string;
  error : Field string;
  important_content : Field string;
  todos : Field string;
  pending_question : Field string
}.

(** A step object: the JSON the server sent for it, which this code never
    looks into, and the [isNew] property the poll callback adds. *)
Record Step := mkStep {
  content : string;
  isNew : option bool
}.

(** The two callbacks the component gives to [setInterval]. *)
Inductive Callback := PollCallback | ElapsedCallback.

#[export] Instance Callback_eq_dec : EqDecision Callback.
Proof. solve_decision. Defined.

(** Who awaits [loadTask]: [onMounted], the [taskId] watcher or
    [submitAnswer]. *)
Inductive Caller := FromMounted | FromWatcher | FromSubmit.

(** Where an asynchronous invocation stands.  The poll callback: at its
    first [await], at its second (the task it got is in scope), or finished.
    [loadTask]: at its first or its second [await], with the caller that
    awaits it. *)
Inductive Stage :=
| AwaitTask
| AwaitSteps (task : Task)
| LoadAwaitTask (caller : Caller)
| LoadAwaitSteps (caller : Caller)
| Finished.

(** [props.taskId], the refs that hold the task, its steps and the poll
    handle, [elapsedTimer], and the browser side.  The refs of the question
    dialog and [elapsedTime] are left out: nothing below reads them.  Step
    objects live in [heap] and arrays hold their addresses, so the array the
    component keeps and the closures that clear [isNew] later see the same
    objects.  [unflags] lists every
    [setTimeout(() => { step.isNew = false }, 1000)] ever issued, by the
    address of its step, with [true] once it has fired. *)
Record Preview := mkPreview {
  taskId : option string;
  currentTask : option Task;
  steps : list nat;
  pollingTimer : option positive;
  elapsedTimer : option positive;
  heap : list Step;
  intervals : gmap positive Callback;
  nextTimer : positive;
  unflags : list (nat * bool);
  inflight : list Stage
}.

Definition set_task_id v t := mkTask v (started_at t) (status t) (result t)
  (error t) (important_content t) (todos t) (pending_question t).
Definition set_started_at v t := mkTask (task_id t) v (status t) (result t)
  (error t) (important_content t) (todos t) (pending_question t).
Definition set_status v t := mkTask (task_id t) (started_at t) v (result t)
  (error t) (important_content t) (todos t) (pending_question t).
Definition set_result v t := mkTask (task_id t) (started_at t) (status t) v
  (error t) (important_content t) (todos t) (pending_question t).
Definition set_error v t := mkTask (task_id t) (started_at t) (status t)
  (result t) v (important_content t) (todos t) (pending_question t).
Definition set_important_content v t := mkTask (task_id t) (started_at t)
  (status t) (result t) (error t) v (todos t) (pending_question t).
Definition set_todos v t := mkTask (task_id t) (started_at t) (status t)
  (result t) (error t) (important_content t) v (pending_question t).
Definition set_pending_question v t := mkTask (task_id t) (started_at t)
  (status t) (result t) (error t) (important_content t) (todos t) v.

Definition set_taskId v w := mkPreview v (currentTask w) (steps w)
  (pollingTimer w) (elapsedTimer w) (heap w) (intervals w) (nextTimer w)
  (unflags w) (inflight w).
Definition set_currentTask v w := mkPreview (taskId w) v (steps w)
  (pollingTimer w) (elapsedTimer w) (heap w) (intervals w) (nextTimer w)
  (unflags w) (inflight w).
Definition set_steps v w := mkPreview (taskId w) (currentTask w) v
  (pollingTimer w) (elapsedTimer w) (heap w) (intervals w) (nextTimer w)
  (unflags w) (inflight w).
Definition set_pollingTimer v w := mkPreview (taskId w) (currentTask w) (steps
  w) v (elapsedTimer w) (heap w) (intervals w) (nextTimer w) (unflags w)
  (inflight w).
Definition set_elapsedTimer v w := mkPreview (taskId w) (currentTask w) (steps
  w) (pollingTimer w) v (heap w) (intervals w) (nextTimer w) (unflags w)
  (inflight w).
Definition set_heap v w := mkPreview (taskId w) (currentTask w) (steps w)
  (pollingTimer w) (elapsedTimer w) v (intervals w) (nextTimer w) (unflags w)
  (inflight w).
Definition set_intervals v w := mkPreview (taskId w) (currentTask w) (steps w)
  (pollingTimer w) (elapsedTimer w) (heap w) v (nextTimer w) (unflags w)
  (inflight w).
Definition set_nextTimer v w := mkPreview (taskId w) (currentTask w) (steps w)
  (pollingTimer w) (elapsedTimer w) (heap w) (intervals w) v (unflags w)
  (inflight w).
Definition set_unflags v w := mkPreview (taskId w) (currentTask w) (steps w)
  (pollingTimer w) (elapsedTimer w) (heap w) (intervals w) (nextTimer w) v
  (inflight w).
Definition set_inflight v w := mkPreview (taskId w) (currentTask w) (steps w)
  (pollingTimer w) (elapsedTimer w) (heap w) (intervals w) (nextTimer w)
  (unflags w) v.

(** The component before [onMounted] runs. *)
Definition init (id : option string) : Preview :=
  mkPreview id None [] None None [] ∅ 1%positive [] [].

(** [!props.taskId]: the prop is [null] or the empty string. *)
Definition no_taskId (w : Preview) : bool :=
  match taskId w with
  | Some id => negb (truthy id)
  | None => true
  end.

(** [setInterval(cb, _)]: a fresh handle, now live. *)
Definition setInterval (cb : Callback) (w : Preview) : positive * Preview :=
  let t := nextTimer w in
  (t, set_nextTimer (Pos.succ t) (set_intervals (<[t := cb]> (intervals w)) w)).

Definition clearInterval (t : positive) (w : Preview) : Preview :=
  set_intervals (delete t (intervals w)) w.

Definition startElapsedTimer (w : Preview) : Preview :=
  match elapsedTimer w with
  | Some _ => w
  | None =>
      let (t, w1) := setInterval ElapsedCallback w in
      set_elapsedTimer (Some t) w1
  end.

Definition stopElapsedTimer (w : Preview) : Preview :=
  match elapsedTimer w with
  | Some t => set_elapsedTimer None (clearInterval t w)
  | None => w
  end.

(** [startPolling] up to the callback, which is [poll_fire], [poll_on_task]
    and [poll_on_steps] below. *)
Definition startPolling (w : Preview) : Preview :=
  match pollingTimer w with
  | Some _ => w
  | None =>
      let (t, w1) := setInterval PollCallback w in
      set_pollingTimer (Some t) w1
  end.

Definition stopPolling (w : Preview) : Preview :=
  match pollingTimer w with
  | Some t => set_pollingTimer None (clearInterval t w)
  | None => w
  end.

(** The poll callback up to [await taskApi.get(props.taskId)]. *)
Definition poll_fire (w : Preview) : Preview :=
  if no_taskId w then stopPolling w
  else set_inflight (inflight w ++ [AwaitTask]) w.

(** The six assignments to [currentTask.value]. *)
Definition refresh (task cur : Task) : Task :=
  set_pending_question (pending_question task)
    (set_todos (todos task)
       (set_important_content (important_content task)
          (set_error (error task)
             (set_result (result task)
                (set_status (status task) cur))))).

(** From the first [await] to the second: [None] is a rejected request,
    which lands in the [catch]. *)
Definition poll_on_task (k : nat) (r : option Task) (w : Preview) : Preview :=
  match r with
  | None => set_inflight (<[k := Finished]> (inflight w)) w
  | Some task =>
      set_inflight (<[k := AwaitSteps task]> (inflight w))
        (set_currentTask (refresh task <$> currentTask w) w)
  end.

(** The response body is parsed into fresh step objects. *)
Definition parse (fetched : list string) (w : Preview) : list nat * Preview :=
  (seq (length (heap w)) (length fetched),
   set_heap (heap w ++ ((λ c, mkStep c None) <$> fetched)) w).

(** The body of [newSteps.forEach]: flag the step and schedule the unflag. *)
Definition flag_new (l : nat) (w : Preview) : Preview :=
  set_unflags (unflags w ++ [(l, false)])
    (set_heap (alter (λ st, mkStep (content st) (Some true)) l (heap w)) w).

(** [stepsData.steps.length > steps.value.length] and what it guards. *)
Definition merge_steps (fetched : list nat) (w : Preview) : Preview :=
  if bool_decide (length (steps w) < length fetched)
  then
    let newSteps := drop (length (steps w)) fetched in
    set_steps fetched (foldl (λ w' l, flag_new l w') w newSteps)
  else w.

Definition is_final (st : string) : bool :=
  bool_decide (st = "completed") || bool_decide (st = "failed")
  || bool_decide (st = "cancelled").

(** From the second [await] to the end.  [None] is a rejected request;
    [Some f] is the response's [steps] field, where anything that is not an
    array counts as [Absent]. *)
Definition poll_on_steps (k : nat) (task : Task)
    (r : option (Field (list string))) (w : Preview) : Preview :=
  match r with
  | None => set_inflight (<[k := Finished]> (inflight w)) w
  | Some f =>
      let w1 :=
        match f with
        | Present fetched => let (arr, w') := parse fetched w in merge_steps arr w'
        | Absent | Null => w
        end in
      let w2 := if is_final (status task)
                then stopElapsedTimer (stopPolling w1) else w1 in
      set_inflight (<[k := Finished]> (inflight w2)) w2
  end.

(** [currentTask.value && currentTask.value.status === 'running'] *)
Definition is_running (w : Preview) : bool :=
  match currentTask w with
  | Some task => bool_decide (status task = "running")
  | None => false
  end.

(** What a caller does once its [await loadTask()] returns. *)
Definition after_loadTask (caller : Caller) (w : Preview) : Preview :=
  match caller with
  | FromMounted =>
      startElapsedTimer (if is_running w then startPolling w else w)
  | FromWatcher =>
      let w1 := startElapsedTimer (stopElapsedTimer w) in
      if is_running w1 then startPolling w1 else w1
  | FromSubmit => w
  end.

(** [loadTask] up to [await taskApi.get(props.taskId)]; with no task id it
    returns at once and the caller goes on. *)
Definition loadTask (caller : Caller) (w : Preview) : Preview :=
  if no_taskId w then after_loadTask caller w
  else set_inflight (inflight w ++ [LoadAwaitTask caller]) w.

(** [loadTask] from its first [await] to its second: the task fetched
    becomes [currentTask]; a rejected request ([None]) lands in the [catch]
    and [loadTask] returns. *)
Definition loadTask_on_task (k : nat) (caller : Caller) (r : option Task)
    (w : Preview) : Preview :=
  match r with
  | None =>
      after_loadTask caller (set_inflight (<[k := Finished]> (inflight w)) w)
  | Some task =>
      set_inflight (<[k := LoadAwaitSteps caller]> (inflight w))
        (set_currentTask (Some task) w)
  end.

(** [loadTask] from its second [await] to its end: a [steps] array, of any
    length, becomes the step list; then the caller goes on. *)
Definition loadTask_on_steps (k : nat) (caller : Caller)
    (r : option (Field (list string))) (w : Preview) : Preview :=
  let w1 :=
    match r with
    | Some (Present fetched) =>
        let (arr, w') := parse fetched w in set_steps arr w'
    | Some Absent | Some Null | None => w
    end in
  after_loadTask caller (set_inflight (<[k := Finished]> (inflight w1)) w1).

(** The [onMounted] hook. *)
Definition onMounted (w : Preview) : Preview := loadTask FromMounted w.

(** The watcher of [props.taskId], run with the new and the old value. *)
Definition watch_taskId (newTaskId oldTaskId : option string) (w : Preview)
    : Preview :=
  let w1 := stopPolling w in
  if from_option truthy false newTaskId
     && negb (bool_decide (newTaskId = oldTaskId))
  then loadTask FromWatcher (set_steps [] w1)
  else w1.

(** The [onUnmounted] hook. *)
Definition onUnmounted (w : Preview) : Preview :=
  stopElapsedTimer (stopPolling w).

(** [cancelTask] once its request has succeeded. *)
Definition cancelled (w : Preview) : Preview :=
  set_currentTask (set_status "cancelled" <$> currentTask w) w.

(** What can happen to the component: the hooks ([Mounted], [Unmounted]);
    the parent changing [props.taskId]; the request of [submitAnswer] or of
    [cancelTask] succeeding; a request of [loadTask] invocation [k]
    settling; the four timer functions called on their own; an interval
    firing; a request of poll invocation [k] settling; an unflag timeout
    firing. *)
Inductive Event :=
| CallStartPolling
| CallStopPolling
| CallStartElapsedTimer
| CallStopElapsedTimer
| PollFire (t : positive)
| ElapsedFire (t : positive)
| TaskSettled (k : nat) (r : option Task)
| StepsSettled (k : nat) (r : option (Field (list string)))
| UnflagFire (i : nat)
| Mounted
| Unmounted
| TaskIdChanged (newTaskId : option string)
| AnswerPosted
| CancelPosted
| LoadTaskSettled (k : nat) (r : option Task)
| LoadStepsSettled (k : nat) (r : option (Field (list string))).

(** One turn of the event loop; [None] when the event cannot happen in this
    state. *)
Definition step (e : Event) (w : Preview) : option Preview :=
  match e with
  | CallStartPolling => Some (startPolling w)
  | CallStopPolling => Some (stopPolling w)
  | CallStartElapsedTimer => Some (startElapsedTimer w)
  | CallStopElapsedTimer => Some (stopElapsedTimer w)
  | PollFire t =>
      if bool_decide (intervals w !! t = Some PollCallback)
      then Some (poll_fire w) else None
  | ElapsedFire t =>
      if bool_decide (intervals w !! t = Some ElapsedCallback)
      then Some w else None
  | TaskSettled k r =>
      match inflight w !! k with
      | Some AwaitTask => Some (poll_on_task k r w)
      | _ => None
      end
  | StepsSettled k r =>
      match inflight w !! k with
      | Some (AwaitSteps task) => Some (poll_on_steps k task r w)
      | _ => None
      end
  | UnflagFire i =>
      match unflags w !! i with
      | Some (l, false) =>
          Some (set_unflags (<[i := (l, true)]> (unflags w))
                  (set_heap (alter (λ st, mkStep (content st) (Some false)) l
                               (heap w)) w))
      | _ => None
      end
  | Mounted => Some (onMounted w)
  | Unmounted => Some (onUnmounted w)
  | TaskIdChanged newTaskId =>
      if bool_decide (newTaskId = taskId w) then None
      else Some (watch_taskId newTaskId (taskId w) (set_taskId newTaskId w))
  | AnswerPosted => Some (loadTask FromSubmit w)
  | CancelPosted =>
      match currentTask w with
      | Some _ => Some (cancelled w)
      | None => None
      end
  | LoadTaskSettled k r =>
      match inflight w !! k with
      | Some (LoadAwaitTask caller) => Some (loadTask_on_task k caller r w)
      | _ => None
      end
  | LoadStepsSettled k r =>
      match inflight w !! k with
      | Some (LoadAwaitSteps caller) => Some (loadTask_on_steps k caller r w)
      | _ => None
      end
  end.

Fixpoint run (evs : list Event) (w : Preview) : option Preview :=
  match evs with
  | [] => Some w
  | e :: evs' =>
      match step e w with
      | Some w' => run evs' w'
      | None => None
      end
  end.

(** The handles of the live intervals that run the poll callback. *)
Definition poll_loops (w : Preview) : gset positive :=
  dom (filter (λ kv, kv.2 = PollCallback) (intervals w)).

(** What the step list shows: the server content of each step, in order. *)
Definition shown (w : Preview) : list (option string) :=
  (λ l, content <$> heap w !! l) <$> steps w.

(** The timer state of the component. *)
Definition timers (w : Preview)
    : option positive * option positive * gmap positive Callback * positive :=
  (pollingTimer w, elapsedTimer w, intervals w, nextTimer w).

(** The step list and the objects behind it. *)
Definition step_state (w : Preview) : list nat * list string :=
  (steps w, content <$> heap w).

(** The two handles and the browser's intervals agree: the live poll
    interval is the one [pollingTimer] holds; live handles are older than
    the next handle to be given out; [elapsedTimer] holds a handle already
    given out, other than the poll handle. *)
Definition timers_ok (w : Preview) : Prop :=
  (∀ t, intervals w !! t = Some PollCallback ↔ pollingTimer w = Some t)
  ∧ (∀ t, is_Some (intervals w !! t) → (t < nextTimer w)%positive)
  ∧ (∀ t, elapsedTimer w = Some t →
          (t < nextTimer w)%positive ∧ pollingTimer w ≠ Some t).


(** A running task, and a component that holds it with no step recorded
    and no timer started. *)
Definition running_task : Task :=
  mkTask "task-1" (Present "2025-01-01T08:00:00") "running"
    Absent Absent Absent Absent Absent.

Definition loaded : Preview :=
  mkPreview (Some "task-1") (Some running_task) [] None None [] ∅
    1%positive [] [].

(** Polling starts, the first poll brings two steps, and the second poll is
    under way. *)
Definition first_polls : list Event :=
  [CallStartPolling; CallStartElapsedTimer; PollFire 1%positive;
   TaskSettled 0 (Some running_task);
   StepsSettled 0 (Some (Present ["tap"; "swipe"]));
   PollFire 1%positive; TaskSettled 1 (Some running_task)].

Definition tracking : Preview := default loaded (run first_polls loaded).







End TaskPreview.

(** * Properties of the WebSocket store *)
Module WebSocketFacts.
Import WebSocketStore.

Example open_store_reached :
  run [CallConnect; SockOpen 0] (init true) = Some open_store.
Proof. reflexivity. Qed.

Example connecting_store_reached :
  run [CallConnect] (init true) = Some connecting_store.
Proof. reflexivity. Qed.

Lemma policy_stopHeartbeat s : policy (stopHeartbeat s) = policy s.
Proof. unfold stopHeartbeat. by destruct (heartbeatTimer s). Qed.

Lemma policy_send f s : policy (send f s) = policy s.
Proof. unfold send. destruct (ws s); [case_bool_decide|]; done. Qed.

Lemma policy_connect s : policy (connect s) = policy s.
Proof. unfold connect. by destruct (ws_is_open s), (urlValid s). Qed.

Lemma policy_disconnect s : policy (disconnect s) = policy s.
Proof.
  unfold disconnect. pose proof (policy_stopHeartbeat s) as H.
  destruct (ws (stopHeartbeat s)) as [id|]; [|done].
  rewrite <- H. unfold socket_close.
  by destruct (sockets (stopHeartbeat s) !! id) as [[]|].
Qed.

Lemma scheduled_fire (l : list (Z * bool)) i d :
  l !! i = Some (d, false) → (<[i := (d, true)]> l).*1 = l.*1.
Proof.
  intros H. rewrite list_fmap_insert. simpl.
  apply list_insert_id. by rewrite list_lookup_fmap, H.
Qed.

(** Apart from a socket opening or closing, nothing touches the policy. *)
Lemma policy_other e s s' :
  is_open_event e = false → is_close_event e = false →
  step e s = Some s' → policy s' = policy s.
Proof.
  intros Ho Hc Hs. destruct e; simpl in *; try done; simplify_eq.
  - apply policy_connect.
  - apply policy_disconnect.
  - apply policy_send.
  - by destruct (sockets s !! id) as [[]|]; simplify_eq.
  - by destruct (sockets s !! id); simplify_eq.
  - destruct (timeouts s !! i) as [[d []]|] eqn:Hi; simplify_eq.
    rewrite policy_connect. unfold policy, scheduled; simpl.
    by rewrite (scheduled_fire _ _ _ Hi).
  - case_bool_decide; simplify_eq. apply policy_send.
Qed.

(** What [onopen] does to the policy. *)
Lemma policy_onopen s : policy (onopen s) = (0%Z, 1000%Z, scheduled s).
Proof.
  unfold onopen, startHeartbeat.
  set (s1 := send _ _). change (policy (stopHeartbeat s1) = (0%Z, 1000%Z, scheduled s)).
  rewrite policy_stopHeartbeat. unfold s1. by rewrite policy_send.
Qed.

(** What [onclose] does to the policy. *)
Lemma policy_onclose s :
  policy (onclose s) =
    if (reconnectAttempts s <? maxReconnectAttempts)%Z
    then ((reconnectAttempts s + 1)%Z,
          Z.min (reconnectDelay s * 2) 30000,
          scheduled s ++ [reconnectDelay s])
    else policy s.
Proof.
  destruct s as [w c a d [t|] sk iv nt ts ob u];
    unfold onclose, stopHeartbeat, policy, scheduled; simpl;
    destruct (a <? maxReconnectAttempts)%Z; simpl;
    by rewrite ?fmap_app.
Qed.

Lemma closes_cons e evs :
  closes (e :: evs) = (if is_close_event e then S (closes evs) else closes evs).
Proof.
  unfold closes. rewrite filter_cons.
  destruct (is_close_event e); by case_decide.
Qed.

(** The policy after a run that starts [n] closes into a losing streak and
    sees no socket open. *)
Lemma backoff_run evs : ∀ s s' (n : nat),
  n ≤ 10 →
  reconnectAttempts s = Z.of_nat n →
  reconnectDelay s = backoff n →
  no_open evs = true →
  run evs s = Some s' →
  reconnectAttempts s' = Z.of_nat ((n + closes evs) `min` 10)
  ∧ reconnectDelay s' = backoff ((n + closes evs) `min` 10)
  ∧ scheduled s' =
      scheduled s ++ (backoff <$> seq n ((n + closes evs) `min` 10 - n)).
Proof.
  induction evs as [|e evs IH]; intros s s' n Hn Ha Hd Hno Hrun.
  - simpl in Hrun. simplify_eq. unfold closes; simpl.
    replace ((n + 0) `min` 10) with n by lia.
    rewrite Nat.sub_diag. simpl. by rewrite app_nil_r.
  - simpl in Hno, Hrun. apply andb_true_iff in Hno as [Hopen Hno].
    apply negb_true_iff in Hopen.
    destruct (step e s) as [s1|] eqn:Hstep; [|done].
    rewrite closes_cons. destruct (is_close_event e) eqn:Hclose.
    + destruct e; try done. simpl in Hstep.
      assert (policy s1 = policy (onclose s)) as Hp.
      { destruct (sockets s !! id) as [[]|]; simplify_eq;
          by rewrite !policy_onclose. }
      rewrite policy_onclose, Ha in Hp. unfold maxReconnectAttempts in Hp.
      destruct (Z.ltb_spec (Z.of_nat n) 10) as [Hlt|Hge].
      * injection Hp as Ha1 Hd1 Hs1.
        destruct (IH s1 s' (S n)) as (Ha' & Hd' & Hs'); try done.
        { lia. } { lia. } { simpl. by rewrite Hd1, Hd. }
        replace (n + S (closes evs)) with (S n + closes evs) by lia.
        split_and!; try done.
        rewrite Hs', Hs1, Hd, <- app_assoc. f_equal.
        replace ((S n + closes evs) `min` 10 - n)
          with (S ((S n + closes evs) `min` 10 - S n)) by lia.
        done.
      * assert (n = 10) as -> by lia.
        injection Hp as Ha1 Hd1 Hs1.
        destruct (IH s1 s' 10) as (Ha' & Hd' & Hs'); try done; try congruence.
        replace ((10 + S (closes evs)) `min` 10)
          with ((10 + closes evs) `min` 10) by lia.
        by rewrite <- Hs1.
    + pose proof (policy_other _ _ _ Hopen Hclose Hstep) as Hp.
      injection Hp as Ha1 Hd1 Hs1.
      destruct (IH s1 s' n) as (Ha' & Hd' & Hs'); try done; try congruence.
      by rewrite <- Hs1.
Qed.

(** [onclose] does not tell a close that [disconnect] asked for from any
    other: with attempts left, the close that follows [disconnect] on an
    open socket schedules [connect] after the current delay. *)
Remark close_after_disconnect_schedules (s : Store) (id : nat) :
  ws s = Some id →
  sockets s !! id = Some OPEN →
  (reconnectAttempts s < maxReconnectAttempts)%Z →
  ∃ s', run [CallDisconnect; SockClose id] s = Some s'
    ∧ scheduled s' = scheduled s ++ [reconnectDelay s].
Proof.
  intros Hws Hopen Hlt.
  assert (sockets (disconnect s) !! id = Some CLOSING) as Hclosing.
  { unfold disconnect, stopHeartbeat.
    destruct (heartbeatTimer s); simpl; rewrite Hws; unfold socket_close;
      simpl; rewrite Hopen; simpl; apply list_lookup_insert_eq;
      by eapply lookup_lt_Some. }
  eexists. split.
  { cbn [run step]. rewrite Hclosing. reflexivity. }
  set (s1 := set_sockets _ _).
  assert (reconnectAttempts s1 = reconnectAttempts s
          ∧ reconnectDelay s1 = reconnectDelay s
          ∧ scheduled s1 = scheduled s) as (Ha & Hd & Hs).
  { pose proof (policy_disconnect s) as H. unfold policy in H.
    injection H as H1 H2 H3. split_and!; [exact H1 | exact H2 | exact H3]. }
  change (scheduled (onclose s1)) with ((policy (onclose s1)).2).
  rewrite policy_onclose, Ha, Hd, Hs.
  by rewrite (proj2 (Z.ltb_lt _ _) Hlt).
Qed.

(** C4 (the code at the failing input).  [disconnect] on an open connection
    stops the heartbeat, starts closing the socket and clears the handle,
    and schedules nothing itself; but the close event that follows runs the
    socket's [onclose], which schedules [connect] after 1000 ms as for any
    other close, and that [connect] brings the connection back. *)
Theorem disconnect_then_close_reconnects :
  heartbeatTimer (disconnect open_store) = None
  ∧ intervals (disconnect open_store) = ∅
  ∧ sockets (disconnect open_store) = [CLOSING]
  ∧ ws (disconnect open_store) = None
  ∧ connected (disconnect open_store) = false
  ∧ scheduled (disconnect open_store) = []
  ∧ (scheduled <$> run [CallDisconnect; SockClose 0] open_store)
      = Some [1000%Z]
  ∧ (sockets <$> run [CallDisconnect; SockClose 0; TimeoutFire 0] open_store)
      = Some [CLOSED; CONNECTING]
  ∧ (connected <$>
       run [CallDisconnect; SockClose 0; TimeoutFire 0; SockOpen 1] open_store)
      = Some true.
Proof. by vm_compute. Qed.

(** C5 (counterexample).  While the socket is still connecting, a second
    [connect] is not a no-op: it constructs a second socket and replaces the
    handle, leaving two sockets that are both connecting. *)
Lemma connect_while_connecting_opens_second :
  ws connecting_store = Some 0
  ∧ sockets connecting_store !! 0 = Some CONNECTING
  ∧ connect connecting_store ≠ connecting_store
  ∧ ws (connect connecting_store) = Some 1
  ∧ live_sockets (connect connecting_store) = [CONNECTING; CONNECTING].
Proof. by split_and!. Qed.

(** C5 (amended).  When the current socket is open, [connect] is a no-op:
    the store is returned as it is, so no socket is constructed and the
    handle, the attempt counter and the delay are unchanged. *)
Theorem connect_noop_when_open (s : Store) (id : nat) :
  ws s = Some id →
  sockets s !! id = Some OPEN →
  connect s = s
  ∧ step CallConnect s = Some s
  ∧ length (sockets (connect s)) = length (sockets s).
Proof.
  intros Hws Hopen.
  assert (connect s = s) as Hc.
  { unfold connect, ws_is_open. rewrite Hws. by rewrite bool_decide_eq_true_2. }
  simpl. by rewrite Hc.
Qed.

Lemma connect_noop_when_open_witness :
  connect open_store = open_store
  ∧ step CallConnect open_store = Some open_store
  ∧ length (sockets (connect open_store)) = length (sockets open_store).
Proof. apply (connect_noop_when_open open_store 0); reflexivity. Defined.

(** C6.  For every run, from any store whose attempt counter is 0 and whose
    delay is 1000 ms (the fresh store, and the store after any successful
    open): as long as no socket opens, the [n]-th close in a row leaves the
    counter at [n] and the delay at [backoff n] (1000 ms doubled [n] times,
    capped at 30000 ms) and has scheduled [connect] after the delay in force
    before it, up to the tenth close; at counter 10 nothing more is
    scheduled, whatever happens.  A socket that opens then resets the
    counter to 0 and the delay to 1000 ms, from where the same holds
    again. *)
Theorem reconnect_backoff_policy (s s' : Store) (evs : list Event) :
  reconnectAttempts s = 0%Z →
  reconnectDelay s = 1000%Z →
  no_open evs = true →
  run evs s = Some s' →
  reconnectAttempts s' = Z.of_nat (closes evs `min` 10)
  ∧ reconnectDelay s' = backoff (closes evs `min` 10)
  ∧ scheduled s' = scheduled s ++ (backoff <$> seq 0 (closes evs `min` 10))
  ∧ ∀ id s'', step (SockOpen id) s' = Some s'' →
      reconnectAttempts s'' = 0%Z ∧ reconnectDelay s'' = 1000%Z
      ∧ scheduled s'' = scheduled s'.
Proof.
  intros Ha Hd Hno Hrun.
  destruct (backoff_run evs s s' 0) as (Ha' & Hd' & Hs'); try done.
  { lia. }
  simpl in *. rewrite Nat.sub_0_r in Hs'. split_and!; try done.
  intros id s'' Hopen. simpl in Hopen.
  destruct (sockets s' !! id) as [[]|]; try done.
  injection Hopen as <-.
  pose proof (policy_onopen (set_sockets (<[id:=OPEN]> (sockets s')) s')) as Hp.
  unfold policy in Hp. injection Hp as H1 H2 H3.
  split_and!; [exact H1 | exact H2 | exact H3].
Qed.

Lemma reconnect_backoff_policy_witness :
  (reconnectAttempts after_cold_start = 2%Z
   ∧ reconnectDelay after_cold_start = 4000%Z
   ∧ scheduled after_cold_start = [1000; 2000]%Z)
  ∧ (reconnectAttempts after_streak = 3%Z
     ∧ reconnectDelay after_streak = 8000%Z
     ∧ scheduled after_streak = [1000; 2000; 4000]%Z).
Proof.
  split.
  - destruct (reconnect_backoff_policy (init true) after_cold_start cold_start)
      as (Ha & Hd & Hs & _); [by vm_compute..|].
    split_and!; [exact Ha | exact Hd | exact Hs].
  - destruct (reconnect_backoff_policy open_store after_streak streak)
      as (Ha & Hd & Hs & _); [by vm_compute..|].
    split_and!; [exact Ha | exact Hd | exact Hs].
Defined.

End WebSocketFacts.

(** * Properties of the human-intervention dialog *)
Module InterventionFacts.
Import InterventionDialog.

Example pending1_reached : run [InterventionNeeded req1] init = Some pending1.
Proof. reflexivity. Qed.

(** [trim] on ASCII and on wider white space: an ideographic space, a
    no-break space and a byte order mark around a word. *)
Example trim_examples :
  trim "  42 " = "42"
  ∧ trim "　" = ""
  ∧ trim "  ok﻿　" = "ok"
  ∧ trim "好　的 " = "好　的".
Proof. by vm_compute. Qed.

Lemma sent_emit e w :
  sent (emit e w) =
    sent w ++ match e with WsSend m => [m] | _ => [] end.
Proof. unfold sent, emit. simpl. rewrite omap_app. by destruct e. Qed.

Lemma sent_stopCountdown w : sent (stopCountdown w) = sent w.
Proof.
  unfold stopCountdown. destruct (countdownTimer w); [|done].
  unfold sent. simpl. rewrite omap_app. simpl. by rewrite app_nil_r.
Qed.

(** What [stopCountdown] leaves of the timers. *)
Lemma stopCountdown_timers w :
  countdownTimer (stopCountdown w) = None
  ∧ intervals (stopCountdown w) =
      match countdownTimer w with
      | Some t => intervals w ∖ {[t]}
      | None => intervals w
      end.
Proof. unfold stopCountdown. destruct (countdownTimer w) eqn:E; simpl; auto. Qed.

(** Everything [handleInterventionRequest] assigns, for any payload and any
    state it arrives in. *)
Lemma handle_request_fields data w :
  let w' := handleInterventionRequest data w in
  interventionType w' = data_intervention_type data
  ∧ message w' = data_message data
  ∧ requestId w' = data_request_id data
  ∧ taskId w' = data_task_id data
  ∧ timeout w' = js_or (data_timeout data) 60%Z
  ∧ remainingTime w' = js_or (data_timeout data) 60%Z
  ∧ visible w' = true
  ∧ countdownTimer w' = Some (nextTimer w)
  ∧ intervals w' = {[nextTimer w]} ∪ intervals (stopCountdown w)
  ∧ sent w' = sent w.
Proof.
  unfold handleInterventionRequest.
  destruct (bool_decide (data_intervention_type data = "confirm"));
    destruct (bool_decide (data_intervention_type data = "input"));
    destruct w as [v ty ms op it ph iv to rt ri ti [t|] ivs nt lg];
    unfold startCountdown, stopCountdown, sent, emit; simpl;
    rewrite ?omap_app; simpl; rewrite ?app_nil_r; done.
Qed.

Lemma handle_request_options data w :
  options (handleInterventionRequest data w) =
    if bool_decide (data_intervention_type data = "confirm")
    then js_or (data_options data) ["确认"; "取消"]
    else options w.
Proof.
  unfold handleInterventionRequest.
  destruct (bool_decide (data_intervention_type data = "confirm"));
    destruct (bool_decide (data_intervention_type data = "input"));
    destruct w as [v ty ms op it ph iv to rt ri ti [t|] ivs nt lg];
    unfold startCountdown, stopCountdown, emit; simpl; done.
Qed.

(** A pending request has exactly one countdown, and restarting it leaves
    exactly one. *)
Lemma restart_single_countdown w (nt : positive) :
  pending w → {[nt]} ∪ intervals (stopCountdown w) = ({[nt]} : gset positive).
Proof.
  intros (_ & t & Ht & Hi).
  destruct (stopCountdown_timers w) as [_ ->]. rewrite Ht, Hi.
  by rewrite difference_diag_L, union_empty_r_L.
Qed.

(** C1 (counterexample).  With [req-1] pending, the event for [req-2] is not
    dropped: request id, message, options and remaining time all become
    those of the new event. *)
Lemma second_request_not_dropped :
  pending pending1
  ∧ request_state pending1
      = ("req-1", "Install the app?", ["Yes"; "No"], 30%Z)
  ∧ request_state (handleInterventionRequest req2 pending1)
      = ("req-2", "Grant the permission?", ["确认"; "取消"], 60%Z)
  ∧ request_state (handleInterventionRequest req2 pending1)
      ≠ request_state pending1.
Proof.
  split_and!; try done.
  split; [done|]. by exists 1%positive.
Qed.

(** C1 (amended).  The dialog has one request slot.  An event that arrives
    while a request is pending takes the slot over: kind, message, request
    id, task id and timeout become the event's (with the 60 s default), as
    do the options for a confirm request; the remaining time restarts from
    the new timeout; the old countdown is cleared and a new one started, so
    exactly one request is pending afterwards, the new one; and no response
    is sent for the request that was replaced. *)
Theorem second_request_takes_the_slot (data : Detail) (w : Dialog) :
  pending w →
  let w' := handleInterventionRequest data w in
  interventionType w' = data_intervention_type data
  ∧ message w' = data_message data
  ∧ requestId w' = data_request_id data
  ∧ taskId w' = data_task_id data
  ∧ timeout w' = js_or (data_timeout data) 60%Z
  ∧ remainingTime w' = js_or (data_timeout data) 60%Z
  ∧ options w' =
      (if bool_decide (data_intervention_type data = "confirm")
       then js_or (data_options data) ["确认"; "取消"]
       else options w)
  ∧ pending w'
  ∧ countdownTimer w' = Some (nextTimer w)
  ∧ sent w' = sent w.
Proof.
  intros Hp w'.
  destruct (handle_request_fields data w)
    as (Hty & Hm & Hr & Ht & Hto & Hrt & Hv & Hc & Hi & Hs).
  fold w' in Hty, Hm, Hr, Ht, Hto, Hrt, Hv, Hc, Hi, Hs.
  rewrite (restart_single_countdown _ _ Hp) in Hi.
  split_and!; try done.
  - apply handle_request_options.
  - split; [done|]. by exists (nextTimer w).
Qed.

Lemma second_request_takes_the_slot_witness :
  pending pending1
  ∧ requestId (handleInterventionRequest req2 pending1) = "req-2"
  ∧ remainingTime (handleInterventionRequest req2 pending1) = 60%Z
  ∧ pending (handleInterventionRequest req2 pending1)
  ∧ sent (handleInterventionRequest req2 pending1) = [].
Proof.
  assert (pending pending1) as Hp.
  { split; [reflexivity|]. exists 1%positive. split; reflexivity. }
  destruct (second_request_takes_the_slot req2 pending1 Hp)
    as (_ & _ & Hr & _ & _ & Hrt & _ & Hp' & _ & Hs).
  split_and!; [exact Hp | exact Hr | exact Hrt | exact Hp' | exact Hs].
Defined.

(** C8.  When the event's [timeout] field is missing, [null] or 0, the
    countdown and the remaining time shown start at 60 seconds. *)
Theorem missing_timeout_defaults_to_60 (data : Detail) (w : Dialog) :
  data_timeout data = Absent
  ∨ data_timeout data = Null
  ∨ data_timeout data = Present 0%Z →
  timeout (handleInterventionRequest data w) = 60%Z
  ∧ remainingTime (handleInterventionRequest data w) = 60%Z.
Proof.
  intros H.
  destruct (handle_request_fields data w) as (_ & _ & _ & _ & -> & -> & _).
  by destruct H as [-> | [-> | ->]].
Qed.

Lemma missing_timeout_defaults_to_60_witness :
  timeout (handleInterventionRequest req3 pending1) = 60%Z
  ∧ remainingTime (handleInterventionRequest req3 pending1) = 60%Z.
Proof.
  apply (missing_timeout_defaults_to_60 req3 pending1).
  right. right. reflexivity.
Defined.

(** C9.  For a confirm request, a missing or [null] [options] field gives
    the two options 确认 and 取消, in that order; a supplied list is
    taken as it is. *)
Theorem confirm_options_default (data : Detail) (w : Dialog) :
  data_intervention_type data = "confirm" →
  options (handleInterventionRequest data w) =
    match data_options data with
    | Present supplied => supplied
    | Absent | Null => ["确认"; "取消"]
    end.
Proof.
  intros H. rewrite handle_request_options.
  rewrite bool_decide_eq_true_2 by done.
  by destruct (data_options data).
Qed.

Lemma confirm_options_default_witness :
  options (handleInterventionRequest req2 init) = ["确认"; "取消"]
  ∧ options (handleInterventionRequest req1 init) = ["Yes"; "No"].
Proof.
  split.
  - apply (confirm_options_default req2 init). reflexivity.
  - apply (confirm_options_default req1 init). reflexivity.
Defined.

Lemma set_remainingTime_id w : set_remainingTime (remainingTime w) w = w.
Proof. by destruct w. Qed.

(** A tick that leaves time on the clock only decrements it. *)
Lemma tick_counts_down w t :
  intervals w = {[t]} →
  (1 < remainingTime w)%Z →
  step (CountdownTick t) w = Some (set_remainingTime (remainingTime w - 1) w).
Proof.
  intros Hi Hn. simpl.
  rewrite bool_decide_eq_true_2 by (rewrite Hi; set_solver).
  unfold countdown_tick. cbv zeta.
  replace (remainingTime (set_remainingTime (remainingTime w - 1) w))
    with (remainingTime w - 1)%Z by done.
  by destruct (Z.leb_spec (remainingTime w - 1) 0); [lia|].
Qed.

(** The tick that takes the clock to zero or below stops the countdown,
    sends the timeout response and closes the prompt. *)
Lemma tick_times_out w t :
  countdownTimer w = Some t →
  intervals w = {[t]} →
  (remainingTime w ≤ 1)%Z →
  ∃ w', step (CountdownTick t) w = Some w'
    ∧ log w' = log w ++ [ClearInterval t;
                         WsSend (response_message w (timeout_response w))]
    ∧ idle w'
    ∧ remainingTime w' = (remainingTime w - 1)%Z
    ∧ inputValue w' = ""
    ∧ requestId w' = requestId w.
Proof.
  intros Hc Hi Hn. eexists. split.
  { simpl. rewrite bool_decide_eq_true_2 by (rewrite Hi; set_solver). done. }
  unfold countdown_tick. cbv zeta.
  replace (remainingTime (set_remainingTime (remainingTime w - 1) w))
    with (remainingTime w - 1)%Z by done.
  destruct (Z.leb_spec (remainingTime w - 1) 0); [|lia].
  destruct w as [v ty ms op it ph iv to rt ri ti ct ivs nt lg].
  simpl in *. subst. unfold handleTimeout, stopCountdown, sendResponse, emit, idle.
  simpl. rewrite <- app_assoc. split_and!; try done.
  apply difference_diag_L.
Qed.

Lemma run_app acts1 acts2 w :
  run (acts1 ++ acts2) w = run acts1 w ≫= run acts2.
Proof.
  revert w. induction acts1 as [|a acts1 IH]; intros w; simpl; [done|].
  by destruct (step a w).
Qed.

(** [j] ticks with more than [j] seconds left only move the clock. *)
Lemma ticks_count_down t j : ∀ w (n : nat),
  intervals w = {[t]} →
  remainingTime w = Z.of_nat n →
  j < n →
  run (replicate j (CountdownTick t)) w
    = Some (set_remainingTime (Z.of_nat (n - j)) w).
Proof.
  induction j as [|j IH]; intros w n Hi Hr Hlt.
  - simpl. rewrite Nat.sub_0_r, <- Hr. by rewrite set_remainingTime_id.
  - cbn [replicate run]. rewrite (tick_counts_down w t) by (done || lia).
    rewrite (IH _ (n - 1)); [| done | simpl; lia | lia].
    f_equal. replace (n - 1 - j) with (n - S j) by lia. by destruct w.
Qed.

(** C7.  A pending request with [S k] seconds on the clock and no operator
    action: the first [k] ticks send nothing and leave the request pending;
    the tick that takes the clock to zero sends exactly one message, the
    response [{success: false, error: "Timeout"}] with the request's id and
    task id (and its kind as [response_type]), and leaves the prompt closed
    with no countdown running. *)
Theorem countdown_expiry_sends_timeout (w : Dialog) (t : positive) (k : nat) :
  visible w = true →
  countdownTimer w = Some t →
  intervals w = {[t]} →
  remainingTime w = Z.of_nat (S k) →
  (∀ j, j ≤ k →
     ∃ wj, run (replicate j (CountdownTick t)) w = Some wj
       ∧ sent wj = sent w ∧ pending wj
       ∧ remainingTime wj = Z.of_nat (S k - j))
  ∧ ∃ w', run (replicate (S k) (CountdownTick t)) w = Some w'
      ∧ sent w' =
          sent w ++ [mkWsMessage "human_intervention_response"
                       (requestId w) (taskId w)
                       (mkResponse false (interventionType w) None None
                          (Some "Timeout"))]
      ∧ idle w'
      ∧ remainingTime w' = 0%Z
      ∧ inputValue w' = "".
Proof.
  intros Hv Hc Hi Hr. split.
  - intros j Hj. eexists. split.
    { apply (ticks_count_down t j w (S k)); (done || lia). }
    split_and!; try done.
    split; [done|]. by exists t.
  - rewrite replicate_S_end, run_app.
    rewrite (ticks_count_down t k w (S k)) by (done || lia).
    replace (S k - k) with 1 by lia.
    destruct (tick_times_out (set_remainingTime 1%Z w) t)
      as (w' & Hstep & Hlog & Hidle & Hrt & Hiv & _); try done.
    exists w'. split.
    { change (run [CountdownTick t] (set_remainingTime 1%Z w) = Some w').
      cbn [run]. by rewrite Hstep. }
    split_and!; try done.
    unfold sent. rewrite Hlog, omap_app. simpl.
    by destruct w.
Qed.













(** The handlers carry no check of their own for a request already
    resolved: run a second time, [handleConfirm] sends again.  What keeps a
    late answer out is the closed prompt, which renders no control to
    click. *)
Remark closed_prompt_takes_no_click :
  step (ClickOption 1) (handleConfirm "Yes" pending1) = None
  ∧ length (sent (handleConfirm "No" (handleConfirm "Yes" pending1))) = 2.
Proof. by vm_compute. Qed.




Lemma countdown_expiry_sends_timeout_witness :
  ∃ w', run (replicate 30 (CountdownTick 1%positive)) pending1 = Some w'
    ∧ sent w' =
        [mkWsMessage "human_intervention_response" "req-1" "task-1"
           (mkResponse false "confirm" None None (Some "Timeout"))]
    ∧ idle w'.
Proof.
  destruct (countdown_expiry_sends_timeout pending1 1%positive 29)
    as (_ & w' & Hrun & Hsent & Hidle & _); [reflexivity..|].
  exists w'. split_and!; [exact Hrun | exact Hsent | exact Hidle].
Defined.

End InterventionFacts.

(** * Properties of the polling of the task preview *)
Module TaskPreviewFacts.
Import TaskPreview.

Example tracking_steps : steps tracking = [0; 1] ∧ shown tracking = [Some "tap"; Some "swipe"].
Proof. by vm_compute. Qed.

(** ** Timers *)

Lemma timers_ok_ext w1 w2 : timers w1 = timers w2 → timers_ok w1 → timers_ok w2.
Proof.
  unfold timers, timers_ok. intros [= Hp He Hi Hn].
  by rewrite Hp, He, Hi, Hn.
Qed.

Lemma startPolling_ok w : timers_ok w → timers_ok (startPolling w).
Proof.
  intros (H1 & H2 & H3). unfold startPolling.
  destruct (pollingTimer w) as [t|] eqn:Hp; [by rewrite <- Hp in *|].
  unfold timers_ok; simpl. split_and!.
  - intros t. rewrite lookup_insert_Some. split.
    + intros [[-> _]|[_ Ht]]; [done|]. apply H1 in Ht. congruence.
    + intros [= <-]. by left.
  - intros t [cb Ht]. apply lookup_insert_Some in Ht as [[<- _]|[_ Ht]]; [lia|].
    assert (t < nextTimer w)%positive by eauto. lia.
  - intros t Ht. destruct (H3 t Ht) as [Hlt _]. split; [lia|].
    intros [= Heq]. lia.
Qed.

Lemma stopPolling_ok w : timers_ok w → timers_ok (stopPolling w).
Proof.
  intros (H1 & H2 & H3). unfold stopPolling.
  destruct (pollingTimer w) as [t|] eqn:Hp; [|by rewrite <- Hp in *].
  unfold timers_ok; simpl. split_and!.
  - intros t'. rewrite lookup_delete_Some. split; [|done].
    intros [Hne Ht']. apply H1 in Ht'. congruence.
  - intros t' [cb Ht']. apply lookup_delete_Some in Ht' as [_ Ht']. eauto.
  - intros t' Ht'. destruct (H3 t' Ht') as [Hlt _]. done.
Qed.

Lemma startElapsedTimer_ok w : timers_ok w → timers_ok (startElapsedTimer w).
Proof.
  intros (H1 & H2 & H3). unfold startElapsedTimer.
  destruct (elapsedTimer w) as [t|] eqn:He; [by rewrite <- He in *|].
  unfold timers_ok; simpl. split_and!.
  - intros t. rewrite lookup_insert_Some, <- H1. split.
    + by intros [[_ ?]|[_ Ht]].
    + intros Ht. right. split; [|done]. intros <-.
      assert (nextTimer w < nextTimer w)%positive by eauto. lia.
  - intros t [cb Ht]. apply lookup_insert_Some in Ht as [[<- _]|[_ Ht]]; [lia|].
    assert (t < nextTimer w)%positive by eauto. lia.
  - intros t [= <-]. split; [lia|]. intros Hp. apply H1 in Hp.
    assert (nextTimer w < nextTimer w)%positive by eauto. lia.
Qed.

Lemma stopElapsedTimer_ok w : timers_ok w → timers_ok (stopElapsedTimer w).
Proof.
  intros (H1 & H2 & H3). unfold stopElapsedTimer.
  destruct (elapsedTimer w) as [t|] eqn:He; [|by rewrite <- He in *].
  destruct (H3 t eq_refl) as [_ Hne].
  unfold timers_ok; simpl. split_and!.
  - intros t'. rewrite lookup_delete_Some, <- H1. split; [by intros [_ ?]|].
    intros Ht'. split; [|done]. intros <-. apply H1 in Ht'. congruence.
  - intros t' [cb Ht']. apply lookup_delete_Some in Ht' as [_ Ht']. eauto.
  - done.
Qed.

(** Flagging new steps touches neither the timers nor the step list, and
    leaves the server content of every object as it was. *)
Lemma flag_new_frame ls : ∀ w,
  timers (foldl (λ w' l, flag_new l w') w ls) = timers w
  ∧ step_state (foldl (λ w' l, flag_new l w') w ls) = step_state w
  ∧ inflight (foldl (λ w' l, flag_new l w') w ls) = inflight w.
Proof.
  induction ls as [|l ls IH]; intros w; [done|]. simpl.
  destruct (IH (flag_new l w)) as (-> & -> & ->).
  split_and!; try done.
  unfold step_state, flag_new; simpl. f_equal.
  apply list_eq. intros i. rewrite !list_lookup_fmap, list_lookup_alter.
  case_decide; [subst|done]. by destruct (heap w !! i).
Qed.

Lemma merge_steps_timers arr w : timers (merge_steps arr w) = timers w.
Proof.
  unfold merge_steps. case_bool_decide; [|done].
  by destruct (flag_new_frame (drop (length (steps w)) arr) w) as [<- _].
Qed.

Lemma poll_fire_ok w : timers_ok w → timers_ok (poll_fire w).
Proof.
  intros H. unfold poll_fire. destruct (no_taskId w); [by apply stopPolling_ok|].
  by apply (timers_ok_ext w).
Qed.

Lemma poll_on_task_ok k r w : timers_ok w → timers_ok (poll_on_task k r w).
Proof. intros H. apply (timers_ok_ext w); [|done]. by destruct r. Qed.

Lemma poll_on_steps_ok k task r w :
  timers_ok w → timers_ok (poll_on_steps k task r w).
Proof.
  intros H. unfold poll_on_steps. destruct r as [f|]; [|by apply (timers_ok_ext w)].
  set (w1 := match f with Present _ => _ | _ => _ end).
  assert (timers_ok w1) as H1.
  { apply (timers_ok_ext w); [|done]. unfold w1.
    destruct f as [| |fetched]; try done. simpl. by rewrite merge_steps_timers. }
  cbv zeta. destruct (is_final (status task)).
  - eapply timers_ok_ext; [|apply stopElapsedTimer_ok, stopPolling_ok, H1]. done.
  - by eapply timers_ok_ext; [|apply H1].
Qed.

Lemma after_loadTask_ok caller w :
  timers_ok w → timers_ok (after_loadTask caller w).
Proof.
  intros H. destruct caller; simpl.
  - apply startElapsedTimer_ok.
    destruct (is_running w); [by apply startPolling_ok|done].
  - destruct (is_running _); [apply startPolling_ok|];
      by apply startElapsedTimer_ok, stopElapsedTimer_ok.
  - done.
Qed.

Lemma loadTask_ok caller w : timers_ok w → timers_ok (loadTask caller w).
Proof.
  intros H. unfold loadTask.
  destruct (no_taskId w); [by apply after_loadTask_ok|].
  by apply (timers_ok_ext w).
Qed.

Lemma loadTask_on_task_ok k caller r w :
  timers_ok w → timers_ok (loadTask_on_task k caller r w).
Proof.
  intros H. destruct r; simpl; [by apply (timers_ok_ext w)|].
  apply after_loadTask_ok. by apply (timers_ok_ext w).
Qed.

Lemma loadTask_on_steps_ok k caller r w :
  timers_ok w → timers_ok (loadTask_on_steps k caller r w).
Proof.
  intros H. unfold loadTask_on_steps. cbv zeta. apply after_loadTask_ok.
  eapply timers_ok_ext; [|exact H]. by destruct r as [[| |fetched]|].
Qed.

Lemma watch_taskId_ok newTaskId oldTaskId w :
  timers_ok w → timers_ok (watch_taskId newTaskId oldTaskId w).
Proof.
  intros H. unfold watch_taskId. cbv zeta.
  destruct (_ && _); [|by apply stopPolling_ok].
  apply loadTask_ok. eapply timers_ok_ext; [|apply stopPolling_ok, H]. done.
Qed.

Lemma step_ok e w w' : timers_ok w → step e w = Some w' → timers_ok w'.
Proof.
  intros H Hstep. destruct e; simpl in Hstep.
  - simplify_eq. by apply startPolling_ok.
  - simplify_eq. by apply stopPolling_ok.
  - simplify_eq. by apply startElapsedTimer_ok.
  - simplify_eq. by apply stopElapsedTimer_ok.
  - case_bool_decide; simplify_eq. by apply poll_fire_ok.
  - by case_bool_decide; simplify_eq.
  - destruct (inflight w !! k) as [[]|]; simplify_eq. by apply poll_on_task_ok.
  - destruct (inflight w !! k) as [[]|]; simplify_eq. by apply poll_on_steps_ok.
  - destruct (unflags w !! i) as [[l []]|]; simplify_eq.
    by apply (timers_ok_ext w).
  - injection Hstep as <-. by apply loadTask_ok.
  - injection Hstep as <-. by apply stopElapsedTimer_ok, stopPolling_ok.
  - case_bool_decide; [done|]. injection Hstep as <-.
    apply watch_taskId_ok. by apply (timers_ok_ext w).
  - injection Hstep as <-. by apply loadTask_ok.
  - destruct (currentTask w); [|done]. injection Hstep as <-.
    by apply (timers_ok_ext w).
  - destruct (inflight w !! k) as [[]|]; try done. injection Hstep as <-.
    by apply loadTask_on_task_ok.
  - destruct (inflight w !! k) as [[]|]; try done. injection Hstep as <-.
    by apply loadTask_on_steps_ok.
Qed.

Lemma run_ok evs : ∀ w w', timers_ok w → run evs w = Some w' → timers_ok w'.
Proof.
  induction evs as [|e evs IH]; intros w w' H Hrun; simpl in Hrun.
  - by simplify_eq.
  - destruct (step e w) as [w1|] eqn:Hstep; [|done].
    eauto using step_ok.
Qed.

(** With the handles in agreement, the live poll intervals are exactly the
    one [pollingTimer] holds. *)
Lemma poll_loops_handle w :
  timers_ok w →
  poll_loops w = match pollingTimer w with Some t => {[t]} | None => ∅ end.
Proof.
  intros (H1 & _ & _). apply set_eq. intros t. unfold poll_loops.
  rewrite elem_of_dom. unfold is_Some.
  setoid_rewrite map_lookup_filter_Some. simpl. split.
  - intros (cb & Ht & ->). apply H1 in Ht. rewrite Ht. by apply elem_of_singleton.
  - intros Ht. exists PollCallback. split; [|done]. apply H1.
    destruct (pollingTimer w) as [t'|]; [|by apply not_elem_of_empty in Ht].
    by apply elem_of_singleton in Ht as ->.
Qed.

(** C10.  In every state the component reaches, at most one interval runs
    the poll callback, and it is the one [pollingTimer] holds.  There,
    [startPolling] changes nothing when [pollingTimer] is set, and starts
    the only poll interval when it is not; [stopPolling] leaves
    [pollingTimer] null and no poll interval live. *)
Theorem at_most_one_poll_loop (w w' : Preview) (evs : list Event) :
  timers_ok w →
  run evs w = Some w' →
  size (poll_loops w') ≤ 1
  ∧ poll_loops w' = match pollingTimer w' with Some t => {[t]} | None => ∅ end
  ∧ match pollingTimer w' with
    | Some _ => startPolling w' = w'
    | None => poll_loops (startPolling w') = {[nextTimer w']}
    end
  ∧ pollingTimer (stopPolling w') = None
  ∧ poll_loops (stopPolling w') = ∅.
Proof.
  intros Hok Hrun.
  pose proof (run_ok evs w w' Hok Hrun) as Hok'.
  pose proof (poll_loops_handle w' Hok') as Hloops.
  pose proof (poll_loops_handle _ (startPolling_ok w' Hok')) as Hstart.
  pose proof (poll_loops_handle _ (stopPolling_ok w' Hok')) as Hstop.
  assert (pollingTimer (stopPolling w') = None) as Hnull.
  { unfold stopPolling. by destruct (pollingTimer w') eqn:E. }
  rewrite Hnull in Hstop.
  split_and!; try done.
  - rewrite Hloops. destruct (pollingTimer w').
    + rewrite size_singleton. lia.
    + rewrite size_empty. lia.
  - unfold startPolling in *. by destruct (pollingTimer w') eqn:E.
Qed.

Lemma at_most_one_poll_loop_witness :
  size (poll_loops tracking) ≤ 1
  ∧ poll_loops tracking = {[1%positive]}
  ∧ startPolling tracking = tracking
  ∧ poll_loops (stopPolling tracking) = ∅.
Proof.
  assert (timers_ok loaded) as Hok.
  { split_and!.
    - intros t. split; [intros H|]; discriminate.
    - intros t [cb H]. discriminate.
    - intros t H. discriminate. }
  destruct (at_most_one_poll_loop loaded tracking first_polls Hok)
    as (Hsize & Hloops & Hstart & _ & Hstop); [by vm_compute|].
  split_and!; [exact Hsize | exact Hloops | exact Hstart | exact Hstop].
Defined.

(** ** The step list *)
























End TaskPreviewFacts.
